(** * tiago_description.tiago_launch_utils

    A shallow embedding of [tiago_launch_utils.py]: the declaration of the
    TIAGo hardware launch arguments, the substitution that builds the
    hardware suffix, the xacro configuration substitution and the command
    that generates the robot description.

    Python strings are [string], lists are [list], the dictionary of launch
    configurations is a [gmap string string].  The launch context is threaded
    through every evaluation, and an exception is the left injection of the
    result. *)

From Stdlib Require Import Ascii.
From stdpp Require Import base strings list gmap.

Local Open Scope string_scope.
Local Open Scope list_scope.
Local Open Scope stdpp_scope.

(** Python's [+] on [str]: left associative, as in the source. *)
Declare Scope py_scope.
Delimit Scope py_scope with py.
Infix "+" := String.append (at level 50, left associativity) : py_scope.

(** ** The launch runtime, as far as this file uses it *)

(** [launch.LaunchContext]: only its dictionary of launch configurations
    is read here. *)
Record LaunchContext : Type := mkLaunchContext {
  launch_configurations : gmap string string
}.

(** What an evaluation can raise.  [SubstitutionFailure] is raised by
    [LaunchConfiguration.perform] for a name that is not a key of
    [launch_configurations]; the other two come from the package index. *)
Inductive LaunchError : Type :=
| SubstitutionFailure (variable_name : string)
| PackageNotFoundError (package : string)
| ExecutableNotFound (package executable : string).

(** An evaluation against a context: it returns a value or raises, and hands
    the context object back. *)
Definition Launch (A : Type) : Type :=
  LaunchContext → (LaunchError + A) * LaunchContext.

#[global] Instance launch_ret : MRet Launch :=
  λ A (a : A) ctx, (inr a, ctx).

#[global] Instance launch_bind : MBind Launch :=
  λ A B (k : A → Launch B) (m : Launch A) ctx,
    match m ctx with
    | (inl e, ctx') => (inl e, ctx')
    | (inr a, ctx') => k a ctx'
    end.

#[global] Instance launch_throw : MThrow LaunchError Launch :=
  λ A (e : LaunchError) ctx, (inl e, ctx).

(** An evaluation that hands back the context it was given. *)
Definition read_only {A} (m : Launch A) : Prop := ∀ ctx, (m ctx).2 = ctx.

(** [LaunchConfiguration(name).perform(context)] without a default: the value
    bound to [name], or [SubstitutionFailure]. *)
Definition perform_launch_configuration (variable_name : string) : Launch string :=
  λ ctx,
    match launch_configurations ctx !! variable_name with
    | Some value => (inr value, ctx)
    | None => (inl (SubstitutionFailure variable_name), ctx)
    end.

(** [launch_pal.arg_utils.read_launch_argument(arg_name, context)], which is
    [perform_substitutions(context, [LaunchConfiguration(arg_name)])]. *)
Definition read_launch_argument (arg_name : string) : Launch string :=
  perform_launch_configuration arg_name.

(** ** [class TiagoXacroConfigSubstitution(Substitution)] *)

Module TiagoXacroConfigSubstitution.

Definition name : string := "TIAGo Xacro Config".

Definition describe : string :=
  "Parses tiago hardware launch arguments into xacro         arguments potat describe".

Definition perform : Launch string :=
  laser_model ← read_launch_argument "laser_model";
  arm ← read_launch_argument "arm";
  end_effector ← read_launch_argument "end_effector";
  ft_sensor ← read_launch_argument "ft_sensor";
  camera_model ← read_launch_argument "camera_model";
  mret (" laser_model:=" + laser_model +
        " arm:=" + arm +
        " end_effector:=" + end_effector +
        " ft_sensor:=" + ft_sensor +
        " camera_model:=" + camera_model)%py.

(** The five names [perform] reads, in the order it reads them. *)
Definition names : list string :=
  ["laser_model"; "arm"; "end_effector"; "ft_sensor"; "camera_model"].

End TiagoXacroConfigSubstitution.

(** ** Substitutions and launch arguments *)

(** The substitutions this file builds.  A [str] in a list of substitutions
    is a [TextSubstitution]. *)
#[warnings="-register-all"]
Inductive Substitution : Type :=
| TextSubstitution (text : string)
| LaunchConfiguration (variable_name : string)
| ExecutableInPackage (executable package : string)
| FindPackageShare (package : string)
| PathJoinSubstitution (substitutions : list Substitution)
| TiagoXacroConfigSubstitution.

(** [launch.substitutions.PythonExpression(expression)]. *)
Record PythonExpression : Type := mkPythonExpression {
  expression : list Substitution
}.

(** [launch.substitutions.Command(command)]. *)
Record Command : Type := mkCommand {
  command : list Substitution
}.

(** [launch.actions.DeclareLaunchArgument(name, default_value=...,
    description=..., choices=...)]. *)
Record DeclareLaunchArgument : Type := mkDeclareLaunchArgument {
  name : string;
  default_value : string;
  description : string;
  choices : list string
}.

(** A Python value passed by keyword. *)
Inductive PyValue : Type :=
| PyBool (b : bool)
| PyStr (s : string).

(** [**kwargs]. *)
Abbreviation Kwargs := (gmap string PyValue).

(** What a call has written on standard output, and what it returned. *)
Record Printed (A : Type) : Type := mkPrinted {
  printed : list (list Substitution);
  returned : A
}.
Arguments mkPrinted {A} _ _.
Arguments printed {A} _.
Arguments returned {A} _.

(** The five boolean parameters [arm], [wrist_model], [end_effector],
    [ft_sensor], [camera_model] of [get_tiago_hw_arguments] and of
    [get_tiago_hw_suffix]; each is [False] when the caller leaves it out. *)
Record HwFlags : Type := mkHwFlags {
  arm : bool;
  wrist_model : bool;
  end_effector : bool;
  ft_sensor : bool;
  camera_model : bool
}.

(** The five [default_...] parameters of [get_tiago_hw_arguments]; [None] is
    a parameter the caller leaves out. *)
Record HwDefaults : Type := mkHwDefaults {
  default_arm : option string;
  default_wrist_model : option string;
  default_end_effector : option string;
  default_ft_sensor : option string;
  default_camera_model : option string
}.

(** Python's [l[:-1]]. *)
Definition slice_to_minus_1 {A : Type} (l : list A) : list A :=
  take (length l - 1) l.

(** ** The tables of the specification *)

(** The five hardware dimensions, in the order of the specification. *)
Inductive Dimension : Type :=
| Arm | WristModel | EndEffector | FtSensor | CameraModel.

Definition dimensions : list Dimension :=
  [Arm; WristModel; EndEffector; FtSensor; CameraModel].

(** The fixed name of a dimension. *)
Definition option_name (d : Dimension) : string :=
  match d with
  | Arm => "arm"
  | WristModel => "wrist_model"
  | EndEffector => "end_effector"
  | FtSensor => "ft_sensor"
  | CameraModel => "camera_model"
  end.

(** The allowed values of a dimension, as the specification enumerates
    them. *)
Definition allowed_values (d : Dimension) : list string :=
  match d with
  | Arm => ["no-arm"; "left-arm"; "right-arm"]
  | WristModel => ["wrist-2010"; "wrist-2017"]
  | EndEffector =>
      ["pal-gripper"; "pal-hey5"; "schunk-wsg"; "custom"; "no-end-effector"]
  | FtSensor => ["schunk-ft"; "no-ft-sensor"]
  | CameraModel =>
      ["no-camera"; "orbbec-astra"; "orbbec-astra-pro"; "asus-xtion"]
  end.

(** The built-in default of a dimension. *)
Definition builtin_default (d : Dimension) : string :=
  match d with
  | Arm => "no-arm"
  | WristModel => "wrist-2010"
  | EndEffector => "no-end-effector"
  | FtSensor => "schunk-ft"
  | CameraModel => "orbbec-astra"
  end.

(** The flag of a dimension in a call, and its default override. *)
Definition flag (flags : HwFlags) (d : Dimension) : bool :=
  match d with
  | Arm => arm flags
  | WristModel => wrist_model flags
  | EndEffector => end_effector flags
  | FtSensor => ft_sensor flags
  | CameraModel => camera_model flags
  end.

Definition override (defaults : HwDefaults) (d : Dimension) : option string :=
  match d with
  | Arm => default_arm defaults
  | WristModel => default_wrist_model defaults
  | EndEffector => default_end_effector defaults
  | FtSensor => default_ft_sensor defaults
  | CameraModel => default_camera_model defaults
  end.

(** The dimensions whose flag is true, in the order of the specification. *)
Definition selected (flags : HwFlags) : list Dimension :=
  filter (λ d, flag flags d = true) dimensions.

(** The hardware option the specification asks for a dimension: its name,
    its allowed values and its default. *)
Definition hardware_option (defaults : HwDefaults) (d : Dimension)
    : string * list string * string :=
  (option_name d, allowed_values d,
   default (builtin_default d) (override defaults d)).

(** What the specification looks at in a declaration. *)
Definition declared_option (a : DeclareLaunchArgument)
    : string * list string * string :=
  (name a, choices a, default_value a).

(** One [name:=value] pair of the dynamic argument block, preceded by a
    space; and the block of a list of pairs. *)
Definition xacro_argument (pair : string * string) : string :=
  " " +:+ pair.1 +:+ ":=" +:+ pair.2.

Definition xacro_arguments (pairs : list (string * string)) : string :=
  String.concat "" (xacro_argument <$> pairs).

(** ** Notions used by the further properties *)

(** The string [s] does not contain the character [c]. *)
Fixpoint free_of (c : Ascii.ascii) (s : string) : bool :=
  match s with
  | EmptyString => true
  | String x s' => if decide (x = c) then false else free_of c s'
  end.

(** The names of a list are read in order: the values bound to them, or the
    error of the first name that is unbound. *)
Fixpoint read_all (ns : list string) : Launch (list string) :=
  match ns with
  | [] => mret []
  | n :: ns' => v ← read_launch_argument n; vs ← read_all ns'; mret (v :: vs)
  end.

(** What the launch runtime requires of a declaration with choices: there
    is a choice, no choice is listed twice, and the default is a choice. *)
Definition well_formed (a : DeclareLaunchArgument) : Prop :=
  choices a ≠ [] ∧ NoDup (choices a) ∧ default_value a ∈ choices a.

(** The fragments of a suffix over the dimensions [ds]: a quote, the
    configurations of [ds] with an underscore between two of them, a quote;
    and the closing quote alone when [ds] is empty. *)
Definition suffix_fragments (ds : list Dimension) : list Substitution :=
  match ds with
  | [] => [TextSubstitution "'"]
  | d :: ds' =>
      TextSubstitution "'" :: LaunchConfiguration (option_name d) ::
      flat_map (λ d', [TextSubstitution "_"; LaunchConfiguration (option_name d')])
               ds'
      ++ [TextSubstitution "'"]
  end.

(** The text of a suffix over the values [vs]. *)
Definition quoted_suffix (vs : list string) : string :=
  "'" +:+ String.concat "_" vs +:+ "'".

(** ** Python's evaluator, as far as this file uses it *)

(** What [str(eval(text))] gives: a string, or something this development
    does not model (an exception or another value). *)
Inductive PyResult : Type :=
| PyReturn (value : string)
| PyUnmodelled.

(** A character that stands for itself inside a single-quoted string
    literal of Python: a printable character that is neither the quote nor
    the backslash. *)
Definition plain_char (a : Ascii.ascii) : bool :=
  Nat.leb 32 (nat_of_ascii a) && Nat.leb (nat_of_ascii a) 126 &&
  negb (Ascii.eqb a "'") && negb (Ascii.eqb a "\").

Fixpoint plain (s : string) : bool :=
  match s with
  | EmptyString => true
  | String a s' => plain_char a && plain s'
  end.

(** [s] without its last character, when that is a quote. *)
Fixpoint literal_content (s : string) : option string :=
  match s with
  | EmptyString => None
  | String a s' =>
      match s' with
      | EmptyString => if Ascii.eqb a "'" then Some EmptyString else None
      | String _ _ => String a <$> literal_content s'
      end
  end.

(** [str(eval(text))] for a text that is one single-quoted string literal
    with plain content: the content.  Every other text is left unmodelled. *)
Definition python_eval_str (text : string) : PyResult :=
  match text with
  | EmptyString => PyUnmodelled
  | String a rest =>
      if Ascii.eqb a "'" then
        match literal_content rest with
        | Some content => if plain content then PyReturn content else PyUnmodelled
        | None => PyUnmodelled
        end
      else PyUnmodelled
  end.

(** ** Example data *)

Definition no_flags : HwFlags := mkHwFlags false false false false false.
Definition all_flags : HwFlags := mkHwFlags true true true true true.
Definition no_overrides : HwDefaults := mkHwDefaults None None None None None.

(** A base provider that looks at its keyword arguments: it declares
    [laser_model] when asked to. *)
Definition example_base_hw_arguments (kwargs : Kwargs)
    : list DeclareLaunchArgument :=
  match kwargs !! "laser_model" with
  | Some (PyBool true) =>
      [mkDeclareLaunchArgument "laser_model"
         (match kwargs !! "default_laser_model" with
          | Some (PyStr s) => s
          | _ => "sick-571"
          end)
         "Base laser model. " ["no-laser"; "sick-571"; "hokuyo"]]
  | _ => []
  end.

Definition example_share_directory (package : string) : option string :=
  if decide (package = "tiago_description")
  then Some "/opt/ros/share/tiago_description" else None.

Definition example_executable_path (package executable : string)
    : option string :=
  if decide (package = "xacro")
  then Some ("/opt/ros/lib/xacro/" +:+ executable) else None.

(** The context of the fifth testable property of the specification. *)
Definition example_context : LaunchContext :=
  mkLaunchContext
    (list_to_map
       [("laser_model", "sick-571"); ("arm", "no-arm");
        ("end_effector", "pal-gripper"); ("ft_sensor", "no-ft-sensor");
        ("camera_model", "asus-xtion")]).

(** A context in which the five suffix options have their defaults. *)
Definition default_context : LaunchContext :=
  mkLaunchContext
    (list_to_map
       [("arm", "no-arm"); ("wrist_model", "wrist-2010");
        ("end_effector", "no-end-effector"); ("ft_sensor", "schunk-ft");
        ("camera_model", "orbbec-astra")]).

(** [example_context] with the wrist model bound as well. *)
Definition example_wrist_context : LaunchContext :=
  mkLaunchContext
    (<["wrist_model" := "wrist-2017"]> (launch_configurations example_context)).

(** Keyword arguments that ask the base provider for the laser model. *)
Definition laser_kwargs : Kwargs := {["laser_model" := PyBool true]}.

(** Only the arm flag. *)
Definition arm_only : HwFlags := mkHwFlags true false false false false.

(** The arm default overridden by an allowed value. *)
Definition right_arm_override : HwDefaults :=
  mkHwDefaults (Some "right-arm") None None None None.

(** ** The functions of the module *)

Section tiago_launch_utils.

(** [pmb2_description.pmb2_launch_utils.get_tiago_base_hw_arguments],
    which receives the keyword arguments this module does not name. *)
Variable get_tiago_base_hw_arguments : Kwargs → list DeclareLaunchArgument.

(** The package index of the installation: the share directory of a
    package and the path of an executable of a package, when installed;
    and [os.path.join]. *)
Variable get_package_share_directory : string → option string.
Variable get_executable_path : string → string → option string.
Variable os_path_join : list string → string.

Definition get_tiago_hw_arguments
    (flags : HwFlags) (defaults : HwDefaults) (kwargs : Kwargs)
    : list DeclareLaunchArgument :=
  let default_arm := default "no-arm" (default_arm defaults) in
  let default_wrist_model := default "wrist-2010" (default_wrist_model defaults) in
  let default_end_effector :=
    default "no-end-effector" (default_end_effector defaults) in
  let default_ft_sensor := default "schunk-ft" (default_ft_sensor defaults) in
  let default_camera_model :=
    default "orbbec-astra" (default_camera_model defaults) in
  let args := get_tiago_base_hw_arguments kwargs in
  let args :=
    if arm flags then
      args ++ [mkDeclareLaunchArgument "arm" default_arm
                 "Which type of arm TIAGo has. "
                 ["no-arm"; "left-arm"; "right-arm"]]
    else args in
  let args :=
    if wrist_model flags then
      args ++ [mkDeclareLaunchArgument "wrist_model" default_wrist_model
                 "Wrist model. "
                 ["wrist-2010"; "wrist-2017"]]
    else args in
  let args :=
    if end_effector flags then
      args ++ [mkDeclareLaunchArgument "end_effector" default_end_effector
                 "End effector model."
                 ["pal-gripper"; "pal-hey5"; "schunk-wsg";
                  "custom"; "no-end-effector"]]
    else args in
  let args :=
    if ft_sensor flags then
      args ++ [mkDeclareLaunchArgument "ft_sensor" default_ft_sensor
                 "FT sensor model. "
                 ["schunk-ft"; "no-ft-sensor"]]
    else args in
  let args :=
    if camera_model flags then
      args ++ [mkDeclareLaunchArgument "camera_model" default_camera_model
                 "Head camera model. "
                 ["no-camera"; "orbbec-astra"; "orbbec-astra-pro"; "asus-xtion"]]
    else args in
  args.

Definition get_tiago_hw_suffix (flags : HwFlags) (kwargs : Kwargs)
    : Printed PythonExpression :=
  let suffix_elements := [TextSubstitution "'"] in
  let suffix_elements :=
    if arm flags then
      (suffix_elements ++ [LaunchConfiguration "arm"]) ++ [TextSubstitution "_"]
    else suffix_elements in
  let suffix_elements :=
    if wrist_model flags then
      (suffix_elements ++ [LaunchConfiguration "wrist_model"])
        ++ [TextSubstitution "_"]
    else suffix_elements in
  let suffix_elements :=
    if end_effector flags then
      (suffix_elements ++ [LaunchConfiguration "end_effector"])
        ++ [TextSubstitution "_"]
    else suffix_elements in
  let suffix_elements :=
    if ft_sensor flags then
      (suffix_elements ++ [LaunchConfiguration "ft_sensor"])
        ++ [TextSubstitution "_"]
    else suffix_elements in
  let suffix_elements :=
    if camera_model flags then
      (suffix_elements ++ [LaunchConfiguration "camera_model"])
        ++ [TextSubstitution "_"]
    else suffix_elements in
  let suffix_elements := slice_to_minus_1 suffix_elements in
  let suffix_elements := suffix_elements ++ [TextSubstitution "'"] in
  mkPrinted [suffix_elements] (mkPythonExpression suffix_elements).

Definition generate_robot_description_action : Command :=
  mkCommand
    [ExecutableInPackage "xacro" "xacro";
     TextSubstitution " ";
     PathJoinSubstitution
       [FindPackageShare "tiago_description";
        TextSubstitution "robots"; TextSubstitution "tiago.urdf.xacro"];
     TiagoXacroConfigSubstitution].

(** *** Evaluation of substitutions *)

(** [substitution.perform(context)]. *)
Fixpoint perform (s : Substitution) : Launch string :=
  match s with
  | TextSubstitution text => mret text
  | LaunchConfiguration variable_name =>
      perform_launch_configuration variable_name
  | ExecutableInPackage executable package =>
      match get_executable_path package executable with
      | None => mthrow (ExecutableNotFound package executable)
      | Some path => mret path
      end
  | FindPackageShare package =>
      match get_package_share_directory package with
      | None => mthrow (PackageNotFoundError package)
      | Some share => mret share
      end
  | PathJoinSubstitution substitutions =>
      performed ←
        (fix perform_each (l : list Substitution) : Launch (list string) :=
           match l with
           | [] => mret []
           | sub :: l' =>
               v ← perform sub; vs ← perform_each l'; mret (v :: vs)
           end) substitutions;
      mret (os_path_join performed)
  | TiagoXacroConfigSubstitution => TiagoXacroConfigSubstitution.perform
  end.

(** [launch.utilities.perform_substitutions(context, subs)]: every
    substitution performed from left to right, the texts joined by the
    empty string. *)
Fixpoint perform_each (subs : list Substitution) : Launch (list string) :=
  match subs with
  | [] => mret []
  | sub :: subs' => v ← perform sub; vs ← perform_each subs'; mret (v :: vs)
  end.

Definition perform_substitutions (subs : list Substitution) : Launch string :=
  performed ← perform_each subs; mret (String.concat "" performed).

(** The text of a [PythonExpression] in a context: its fragments
    performed and joined.  (The runtime then hands this text to Python's
    evaluator, which is outside this development.) *)
Definition expression_text (e : PythonExpression) : Launch string :=
  perform_substitutions (expression e).

(** The command line of a [Command] in a context: its fragments performed
    and joined.  (The runtime then runs it as a process.) *)
Definition command_line (c : Command) : Launch string :=
  perform_substitutions (command c).

(** [PythonExpression.perform(context)]: the text of the expression, then
    [str(eval(text))]. *)
Definition perform_python_expression (e : PythonExpression) : Launch PyResult :=
  text ← expression_text e; mret (python_eval_str text).

(** ** Properties *)

(** *** Strings and the evaluation monad *)

Lemma append_assoc (a b c : string) : (a +:+ b) +:+ c = a +:+ (b +:+ c).
Proof.
  induction a as [|x a IH]; [reflexivity|].
  change (String x ((a +:+ b) +:+ c) = String x (a +:+ (b +:+ c))).
  by rewrite IH.
Qed.

Lemma append_nil_r (a : string) : a +:+ "" = a.
Proof.
  induction a as [|x a IH]; [reflexivity|].
  change (String x (a +:+ "") = String x a). by rewrite IH.
Qed.

Lemma concat_cons (a : string) (l : list string) :
  String.concat "" (a :: l) = a +:+ String.concat "" l.
Proof. destruct l; [by rewrite append_nil_r | reflexivity]. Qed.

Lemma bind_inr {A B} (m : Launch A) (k : A → Launch B) ctx a ctx' :
  m ctx = (inr a, ctx') → (m ≫= k) ctx = k a ctx'.
Proof. intros H. unfold mbind, launch_bind. by rewrite H. Qed.

Lemma bind_inl {A B} (m : Launch A) (k : A → Launch B) ctx e ctx' :
  m ctx = (inl e, ctx') → (m ≫= k) ctx = (inl e, ctx').
Proof. intros H. unfold mbind, launch_bind. by rewrite H. Qed.

Lemma read_declared ctx n v :
  launch_configurations ctx !! n = Some v →
  read_launch_argument n ctx = (inr v, ctx).
Proof.
  intros H. unfold read_launch_argument, perform_launch_configuration.
  by rewrite H.
Qed.

Lemma read_undeclared ctx n :
  launch_configurations ctx !! n = None →
  read_launch_argument n ctx = (inl (SubstitutionFailure n), ctx).
Proof.
  intros H. unfold read_launch_argument, perform_launch_configuration.
  by rewrite H.
Qed.

(** *** The xacro configuration substitution *)

(** C4.  In a context that binds the five names [laser_model], [arm],
    [end_effector], [ft_sensor], [camera_model] to [values],
    [TiagoXacroConfigSubstitution.perform] returns the [name:=value] pairs
    in that order, each preceded by one space and nothing between them, and
    leaves the context as it was. *)
Theorem perform_renders_pairs (ctx : LaunchContext) (values : list string) :
  Forall2 (λ n v, launch_configurations ctx !! n = Some v)
          TiagoXacroConfigSubstitution.names values →
  TiagoXacroConfigSubstitution.perform ctx =
    (inr (xacro_arguments (zip TiagoXacroConfigSubstitution.names values)),
     ctx).
Proof.
  unfold TiagoXacroConfigSubstitution.names. intros H.
  repeat match goal with
  | H : Forall2 _ (_ :: _) _ |- _ =>
      apply Forall2_cons_inv_l in H as (? & ? & ? & H & ->)
  | H : Forall2 _ [] _ |- _ => apply Forall2_nil_inv_l in H as ->
  end.
  unfold TiagoXacroConfigSubstitution.perform.
  repeat (erewrite bind_inr; [|by apply read_declared]).
  unfold mret, launch_ret. do 2 f_equal.
  unfold xacro_arguments, xacro_argument. simpl.
  rewrite !append_assoc. reflexivity.
Qed.

Lemma perform_stops_at (ctx : LaunchContext) (i : nat) (m : string) :
  list_find (λ x, launch_configurations ctx !! x = None)
            TiagoXacroConfigSubstitution.names = Some (i, m) →
  TiagoXacroConfigSubstitution.perform ctx = read_launch_argument m ctx.
Proof.
  unfold TiagoXacroConfigSubstitution.names,
    TiagoXacroConfigSubstitution.perform.
  intros Hfind. cbn in Hfind.
  repeat (case_decide as E;
    [ injection Hfind as <- <-;
      erewrite bind_inl by (by apply read_undeclared);
      by rewrite read_undeclared
    | apply not_eq_None_Some in E as [? E];
      erewrite bind_inr by (by apply read_declared); clear E ]).
  done.
Qed.

(** C7.  In a context where one of the five names read by
    [TiagoXacroConfigSubstitution.perform] is undeclared, the evaluation
    raises: its result is the result of the lookup of the first undeclared
    name [m] in reading order, which is the lookup error for [m].  No
    string is returned.  When [laser_model] is undeclared, [m] is
    [laser_model], the first name read. *)
Theorem perform_undeclared (ctx : LaunchContext) (n : string) :
  n ∈ TiagoXacroConfigSubstitution.names →
  launch_configurations ctx !! n = None →
  ∃ (i : nat) (m : string),
    list_find (λ x, launch_configurations ctx !! x = None)
              TiagoXacroConfigSubstitution.names = Some (i, m) ∧
    read_launch_argument m ctx = (inl (SubstitutionFailure m), ctx) ∧
    TiagoXacroConfigSubstitution.perform ctx = read_launch_argument m ctx.
Proof.
  intros Hin Hn.
  destruct (list_find (λ x, launch_configurations ctx !! x = None)
              TiagoXacroConfigSubstitution.names) as [[i m]|] eqn:Hfind.
  - exists i, m. split; [done|].
    pose proof Hfind as (_ & Hm & _)%list_find_Some.
    split; [by apply read_undeclared | by eapply perform_stops_at].
  - apply list_find_None in Hfind.
    rewrite Forall_forall in Hfind. by destruct (Hfind n Hin).
Qed.

(** *** Evaluation only reads the context *)

Lemma read_only_ret {A} (a : A) : read_only (mret a).
Proof. by intros ctx. Qed.

Lemma read_only_throw {A} (e : LaunchError) : read_only (mthrow (A:=A) e).
Proof. by intros ctx. Qed.

Lemma read_only_bind {A B} (m : Launch A) (k : A → Launch B) :
  read_only m → (∀ a, read_only (k a)) → read_only (m ≫= k).
Proof.
  intros Hm Hk ctx. unfold mbind, launch_bind.
  specialize (Hm ctx). destruct (m ctx) as [[e|a] ctx']; simpl in Hm; subst.
  - done.
  - apply Hk.
Qed.

Lemma read_only_launch_configuration n :
  read_only (perform_launch_configuration n).
Proof.
  intros ctx. unfold perform_launch_configuration.
  by destruct (launch_configurations ctx !! n).
Qed.

Lemma read_only_xacro_config : read_only TiagoXacroConfigSubstitution.perform.
Proof.
  unfold TiagoXacroConfigSubstitution.perform, read_launch_argument.
  repeat (apply read_only_bind; [apply read_only_launch_configuration|intros ?]).
  apply read_only_ret.
Qed.

Lemma read_only_perform : ∀ s, read_only (perform s).
Proof.
  fix IH 1. intros [text|n|executable package|package|subs|]; simpl.
  - apply read_only_ret.
  - apply read_only_launch_configuration.
  - destruct (get_executable_path package executable);
      [apply read_only_ret | apply read_only_throw].
  - destruct (get_package_share_directory package);
      [apply read_only_ret | apply read_only_throw].
  - apply read_only_bind; [|intros ?; apply read_only_ret].
    induction subs as [|sub subs IHsubs]; [apply read_only_ret|].
    apply read_only_bind; [apply IH|intros ?].
    apply read_only_bind; [apply IHsubs|intros ?]. apply read_only_ret.
  - apply read_only_xacro_config.
Qed.

Lemma read_only_perform_substitutions subs :
  read_only (perform_substitutions subs).
Proof.
  apply read_only_bind; [|intros ?; apply read_only_ret].
  induction subs as [|sub subs IHsubs]; [apply read_only_ret|].
  simpl. apply read_only_bind; [apply read_only_perform|intros ?].
  apply read_only_bind; [apply IHsubs|intros ?]. apply read_only_ret.
Qed.

(** *** The suffix composer *)

Lemma perform_substitutions_text text subs ctx :
  perform_substitutions (TextSubstitution text :: subs) ctx =
    (perform_substitutions subs ≫= λ rest, mret (text +:+ rest)) ctx.
Proof.
  unfold perform_substitutions, mbind, launch_bind. simpl.
  unfold mbind, launch_bind, mret, launch_ret.
  destruct (perform_each subs ctx) as [[e|vs] ctx']; [done|].
  by rewrite concat_cons.
Qed.

Lemma perform_substitutions_configuration n v subs ctx :
  launch_configurations ctx !! n = Some v →
  perform_substitutions (LaunchConfiguration n :: subs) ctx =
    (perform_substitutions subs ≫= λ rest, mret (v +:+ rest)) ctx.
Proof.
  intros Hn.
  unfold perform_substitutions, mbind, launch_bind. simpl.
  unfold mbind, launch_bind, mret, launch_ret, perform_launch_configuration.
  rewrite Hn.
  destruct (perform_each subs ctx) as [[e|vs] ctx']; [done|].
  by rewrite concat_cons.
Qed.

Lemma perform_substitutions_nil ctx :
  perform_substitutions [] ctx = (inr "", ctx).
Proof. reflexivity. Qed.

(** The text of the suffix.  With at least one flag set, in a context that
    binds the names of the selected dimensions to [values], the fragments of
    the expression returned by [get_tiago_hw_suffix], performed and joined,
    are the values in the order arm, wrist_model, end_effector, ft_sensor,
    camera_model, joined by one underscore, between two single quotes. *)
Theorem get_tiago_hw_suffix_joins_selected
    (flags : HwFlags) (kwargs : Kwargs) (ctx : LaunchContext)
    (values : list string) :
  selected flags ≠ [] →
  Forall2 (λ d v, launch_configurations ctx !! option_name d = Some v)
          (selected flags) values →
  expression_text (returned (get_tiago_hw_suffix flags kwargs)) ctx =
    (inr ("'" +:+ String.concat "_" values +:+ "'"), ctx).
Proof.
  destruct flags as [[] [] [] [] []]; intros Hne H;
    try (by destruct Hne);
    match type of H with
    | Forall2 _ (selected ?f) _ =>
        let l := eval vm_compute in (selected f) in
        change (selected f) with l in H
    end;
    repeat match goal with
    | H : Forall2 _ (_ :: _) _ |- _ =>
        apply Forall2_cons_inv_l in H as (? & ? & ? & H & ->)
    | H : Forall2 _ [] _ |- _ => apply Forall2_nil_inv_l in H as ->
    end;
    simpl option_name in *;
    unfold expression_text; simpl expression;
    repeat (first
      [ rewrite perform_substitutions_text
      | erewrite perform_substitutions_configuration by eassumption
      | rewrite perform_substitutions_nil ];
      unfold mbind, launch_bind, mret, launch_ret);
    simpl; rewrite ?append_assoc; reflexivity.
Qed.

(** C3 (the code at the failing input).  With no flag set, the slice that
    is meant to drop the last underscore drops the opening quote: the
    expression has the closing quote as its only fragment and its text is
    one quote character, not two. *)
Theorem get_tiago_hw_suffix_no_flags (kwargs : Kwargs) (ctx : LaunchContext) :
  expression (returned (get_tiago_hw_suffix no_flags kwargs)) =
    [TextSubstitution "'"] ∧
  expression_text (returned (get_tiago_hw_suffix no_flags kwargs)) ctx =
    (inr "'", ctx) ∧
  expression_text (returned (get_tiago_hw_suffix no_flags kwargs)) ctx ≠
    (inr "''", ctx).
Proof. by repeat split. Qed.

(** *** The argument declarator *)

Ltac solve_appended :=
  eexists; split;
    [ unfold get_tiago_hw_arguments; simpl; rewrite <- ?(assoc_L (++));
      first [reflexivity | symmetry; apply app_nil_r]
    | reflexivity ].

(** C1.  Beyond the declarations of the base provider,
    [get_tiago_hw_arguments] returns one declaration per true flag, and
    each has the name of its dimension, the allowed values the
    specification enumerates for it, and the built-in default unless the
    call overrides it, in which case it has the override. *)
Theorem get_tiago_hw_arguments_one_per_flag
    (flags : HwFlags) (defaults : HwDefaults) (kwargs : Kwargs) :
  ∃ appended : list DeclareLaunchArgument,
    get_tiago_hw_arguments flags defaults kwargs =
      get_tiago_base_hw_arguments kwargs ++ appended ∧
    declared_option <$> appended = hardware_option defaults <$> selected flags.
Proof. destruct flags as [[] [] [] [] []]; solve_appended. Qed.

(** C5.  The list returned by [get_tiago_hw_arguments] starts with the
    declarations of the base provider, and the names that follow are arm,
    wrist_model, end_effector, ft_sensor, camera_model in that order, a
    name being absent when its flag is false. *)
Theorem get_tiago_hw_arguments_order
    (flags : HwFlags) (defaults : HwDefaults) (kwargs : Kwargs) :
  ∃ appended : list DeclareLaunchArgument,
    get_tiago_hw_arguments flags defaults kwargs =
      get_tiago_base_hw_arguments kwargs ++ appended ∧
    name <$> appended =
      (if arm flags then ["arm"] else []) ++
      (if wrist_model flags then ["wrist_model"] else []) ++
      (if end_effector flags then ["end_effector"] else []) ++
      (if ft_sensor flags then ["ft_sensor"] else []) ++
      (if camera_model flags then ["camera_model"] else []).
Proof. destruct flags as [[] [] [] [] []]; solve_appended. Qed.

(** C9.  The result of the base provider is a prefix of the list returned
    by [get_tiago_hw_arguments], element by element, and with no flag set
    the returned list is the result of the base provider. *)
Theorem get_tiago_hw_arguments_keeps_base
    (flags : HwFlags) (defaults : HwDefaults) (kwargs : Kwargs) :
  get_tiago_base_hw_arguments kwargs
    `prefix_of` get_tiago_hw_arguments flags defaults kwargs ∧
  take (length (get_tiago_base_hw_arguments kwargs))
       (get_tiago_hw_arguments flags defaults kwargs) =
    get_tiago_base_hw_arguments kwargs ∧
  get_tiago_hw_arguments no_flags defaults kwargs =
    get_tiago_base_hw_arguments kwargs.
Proof.
  assert (∃ appended, get_tiago_hw_arguments flags defaults kwargs =
            get_tiago_base_hw_arguments kwargs ++ appended) as [appended ->].
  { unfold get_tiago_hw_arguments.
    repeat match goal with |- context [if ?b then _ else _] => destruct b end;
      rewrite <- ?(assoc_L (++)); eauto using app_nil_r. }
  split; [by exists appended|]. split; [by rewrite take_app_length|done].
Qed.

(** *** The description generator *)

(** C6.  The command returned by [generate_robot_description_action] has
    four arguments: the xacro executable of the xacro package, one space,
    the join of the share directory of tiago_description with robots and
    tiago.urdf.xacro, and the configuration substitution.  Where the
    executable and the share directory are installed and the configuration
    substitution evaluates to [block], its command line is these four
    texts in that order. *)
Theorem generate_robot_description_action_arguments
    (ctx : LaunchContext) (xacro share block : string) :
  get_executable_path "xacro" "xacro" = Some xacro →
  get_package_share_directory "tiago_description" = Some share →
  TiagoXacroConfigSubstitution.perform ctx = (inr block, ctx) →
  command generate_robot_description_action =
    [ExecutableInPackage "xacro" "xacro";
     TextSubstitution " ";
     PathJoinSubstitution
       [FindPackageShare "tiago_description";
        TextSubstitution "robots"; TextSubstitution "tiago.urdf.xacro"];
     TiagoXacroConfigSubstitution] ∧
  command_line generate_robot_description_action ctx =
    (inr (xacro +:+ " " +:+
          os_path_join [share; "robots"; "tiago.urdf.xacro"] +:+ block),
     ctx).
Proof.
  intros Hxacro Hshare Hblock. split; [reflexivity|].
  unfold command_line, perform_substitutions. simpl.
  rewrite Hxacro, Hshare.
  unfold mbind, launch_bind, mret, launch_ret. simpl.
  rewrite Hblock. reflexivity.
Qed.

(** ** Further properties *)

(** *** Reading names in order *)

Lemma read_all_bound ctx ns vs :
  Forall2 (λ n v, launch_configurations ctx !! n = Some v) ns vs →
  read_all ns ctx = (inr vs, ctx).
Proof.
  induction 1 as [|n v ns vs Hn _ IH]; [reflexivity|].
  simpl. erewrite bind_inr by (by apply read_declared).
  by erewrite bind_inr by exact IH.
Qed.

Lemma read_all_unbound ctx ns i m :
  list_find (λ x, launch_configurations ctx !! x = None) ns = Some (i, m) →
  read_all ns ctx = (inl (SubstitutionFailure m), ctx).
Proof.
  revert i. induction ns as [|n ns IH]; intros i Hfind; [done|].
  cbn in Hfind. case_decide as E.
  - injection Hfind as <- <-. simpl.
    by erewrite bind_inl by (by apply read_undeclared).
  - apply not_eq_None_Some in E as [v E].
    destruct (list_find _ ns) as [[j m']|] eqn:Hns; [|done].
    injection Hfind as <- <-. simpl.
    erewrite bind_inr by (by apply read_declared).
    by erewrite bind_inl by (by eapply IH).
Qed.

Lemma read_all_values ctx ns vs ctx' :
  read_all ns ctx = (inr vs, ctx') →
  Forall2 (λ n v, launch_configurations ctx !! n = Some v) ns vs.
Proof.
  revert vs. induction ns as [|n ns IH]; intros vs.
  - intros [= <- _]. constructor.
  - simpl. unfold mbind at 1, launch_bind, read_launch_argument,
      perform_launch_configuration.
    destruct (launch_configurations ctx !! n) as [v|] eqn:Hn; [|done].
    unfold mbind, launch_bind.
    destruct (read_all ns ctx) as [[e|ws] ctx''] eqn:Hns; [done|].
    unfold mret, launch_ret. intros [= <- <-]. constructor; [done|].
    by apply IH.
Qed.

Lemma read_all_agree ctx1 ctx2 ns :
  Forall (λ n, launch_configurations ctx1 !! n = launch_configurations ctx2 !! n)
         ns →
  (read_all ns ctx1).1 = (read_all ns ctx2).1.
Proof.
  induction 1 as [|n ns Hn _ IH]; [reflexivity|].
  simpl. unfold mbind, launch_bind, read_launch_argument,
    perform_launch_configuration.
  rewrite Hn. destruct (launch_configurations ctx2 !! n); [|done].
  destruct (read_all ns ctx1) as [[?|?] ?], (read_all ns ctx2) as [[?|?] ?];
    simpl in *; congruence.
Qed.

Lemma bound_values ctx ns :
  Forall (λ n, is_Some (launch_configurations ctx !! n)) ns →
  ∃ vs, Forall2 (λ n v, launch_configurations ctx !! n = Some v) ns vs.
Proof.
  induction 1 as [|n ns [v Hn] _ [vs IH]]; [by exists []|].
  exists (v :: vs). by constructor.
Qed.

(** [TiagoXacroConfigSubstitution.perform] reads its five names in order
    and then renders the pairs. *)
Lemma perform_reads_names ctx :
  TiagoXacroConfigSubstitution.perform ctx =
    (vs ← read_all TiagoXacroConfigSubstitution.names;
     mret (xacro_arguments (zip TiagoXacroConfigSubstitution.names vs))) ctx.
Proof.
  unfold TiagoXacroConfigSubstitution.perform, TiagoXacroConfigSubstitution.names.
  simpl. unfold mbind, launch_bind, mret, launch_ret, read_launch_argument,
    perform_launch_configuration.
  repeat match goal with
  | |- context [launch_configurations ctx !! ?n] =>
      destruct (launch_configurations ctx !! n); [|reflexivity]
  end.
  do 2 f_equal. unfold xacro_arguments, xacro_argument. simpl.
  rewrite !append_assoc. reflexivity.
Qed.

(** *** The xacro configuration substitution, continued *)

(** X1.  The result of [TiagoXacroConfigSubstitution.perform] depends on the
    context only through the five names it reads: in two contexts that bind
    these names alike it returns the same string or raises the same error,
    whatever else the contexts bind (the wrist model, for one, never reaches
    the block). *)
Theorem perform_reads_only_its_names (ctx1 ctx2 : LaunchContext) :
  Forall (λ n, launch_configurations ctx1 !! n = launch_configurations ctx2 !! n)
         TiagoXacroConfigSubstitution.names →
  (TiagoXacroConfigSubstitution.perform ctx1).1 =
    (TiagoXacroConfigSubstitution.perform ctx2).1.
Proof.
  intros Hagree. rewrite !perform_reads_names.
  apply read_all_agree in Hagree.
  unfold mbind, launch_bind, mret, launch_ret.
  destruct (read_all _ ctx1) as [[?|?] ?], (read_all _ ctx2) as [[?|?] ?];
    simpl in Hagree; simplify_eq; reflexivity.
Qed.

(** X2.  [TiagoXacroConfigSubstitution.perform] returns a string exactly
    when the context binds all five names it reads. *)
Theorem perform_returns_iff_bound (ctx : LaunchContext) :
  (∃ text, TiagoXacroConfigSubstitution.perform ctx = (inr text, ctx)) ↔
  Forall (λ n, is_Some (launch_configurations ctx !! n))
         TiagoXacroConfigSubstitution.names.
Proof.
  rewrite perform_reads_names. split.
  - intros [text Htext]. unfold mbind, launch_bind in Htext.
    destruct (read_all _ ctx) as [[e|vs] ctx'] eqn:Hvs; [done|].
    apply read_all_values in Hvs.
    eapply Forall2_Forall_l; [exact Hvs|]. apply Forall_true. by eauto.
  - intros [vs Hvs]%bound_values. eexists.
    by erewrite bind_inr by (by apply read_all_bound).
Qed.

(** *** The suffix composer, continued *)

Lemma selected_nil flags : selected flags = [] → flags = no_flags.
Proof. by destruct flags as [[] [] [] [] []]. Qed.

(** X3.  For every flag setting, the expression returned by
    [get_tiago_hw_suffix] is a quote, the launch configurations of the
    selected dimensions in order with one underscore fragment between two of
    them, and a quote; with no flag set it is the closing quote alone. *)
Theorem get_tiago_hw_suffix_fragments (flags : HwFlags) (kwargs : Kwargs) :
  expression (returned (get_tiago_hw_suffix flags kwargs)) =
    suffix_fragments (selected flags).
Proof. by destruct flags as [[] [] [] [] []]. Qed.

(** With a flag set, the suffix expression reads the names of the selected
    dimensions in order and then joins the values. *)
Lemma suffix_reads_selected flags kwargs ctx :
  selected flags ≠ [] →
  expression_text (returned (get_tiago_hw_suffix flags kwargs)) ctx =
    (vs ← read_all (option_name <$> selected flags); mret (quoted_suffix vs)) ctx.
Proof.
  destruct flags as [[] [] [] [] []]; intros Hne; try (by destruct Hne);
    unfold expression_text, perform_substitutions; simpl;
    unfold mbind, launch_bind, mret, launch_ret, read_launch_argument,
      perform_launch_configuration;
    repeat match goal with
    | |- context [launch_configurations ctx !! ?n] =>
        destruct (launch_configurations ctx !! n); [|reflexivity]
    end;
    do 2 f_equal; unfold quoted_suffix; simpl;
    rewrite ?append_assoc; reflexivity.
Qed.

(** X4.  When a selected name is unbound, the evaluation of the suffix
    expression raises the lookup error of the first unbound name among the
    selected ones, in the order arm, wrist_model, end_effector, ft_sensor,
    camera_model, and hands the context back. *)
Theorem get_tiago_hw_suffix_undeclared
    (flags : HwFlags) (kwargs : Kwargs) (ctx : LaunchContext)
    (i : nat) (m : string) :
  list_find (λ x, launch_configurations ctx !! x = None)
            (option_name <$> selected flags) = Some (i, m) →
  expression_text (returned (get_tiago_hw_suffix flags kwargs)) ctx =
    (inl (SubstitutionFailure m), ctx).
Proof.
  intros Hfind. rewrite suffix_reads_selected.
  - by erewrite bind_inl by (by eapply read_all_unbound).
  - intros Hnil. by rewrite Hnil in Hfind.
Qed.

(** X5.  The suffix depends on the context only through the names of the
    selected dimensions: in two contexts that bind them alike the
    expression evaluates to the same text or raises the same error. *)
Theorem get_tiago_hw_suffix_reads_only_selected
    (flags : HwFlags) (kwargs : Kwargs) (ctx1 ctx2 : LaunchContext) :
  Forall (λ n, launch_configurations ctx1 !! n = launch_configurations ctx2 !! n)
         (option_name <$> selected flags) →
  (expression_text (returned (get_tiago_hw_suffix flags kwargs)) ctx1).1 =
    (expression_text (returned (get_tiago_hw_suffix flags kwargs)) ctx2).1.
Proof.
  intros Hagree. destruct (decide (selected flags = [])) as [Hnil|Hne].
  - by rewrite (selected_nil _ Hnil).
  - rewrite !suffix_reads_selected by done.
    apply read_all_agree in Hagree.
    unfold mbind, launch_bind, mret, launch_ret.
    destruct (read_all _ ctx1) as [[?|?] ?], (read_all _ ctx2) as [[?|?] ?];
      simpl in Hagree; simplify_eq; reflexivity.
Qed.

Lemma append_cons (x : Ascii.ascii) (a b : string) :
  String x a +:+ b = String x (a +:+ b).
Proof. reflexivity. Qed.

Lemma append_nil_l (b : string) : "" +:+ b = b.
Proof. reflexivity. Qed.

Lemma concat_cons_cons (sep x y : string) (l : list string) :
  String.concat sep (x :: y :: l) = x +:+ sep +:+ String.concat sep (y :: l).
Proof. reflexivity. Qed.

(** Two strings free of [c], each followed by [c], end at the same place. *)
Lemma split_at (c : Ascii.ascii) (a a' r r' : string) :
  free_of c a = true → free_of c a' = true →
  a +:+ String c r = a' +:+ String c r' → a = a' ∧ r = r'.
Proof.
  revert a'. induction a as [|x a IH]; intros [|x' a']; simpl;
    rewrite ?append_cons, ?append_nil_l.
  - intros _ _ [= ->]. done.
  - case_decide; [done|]. intros _ _ [= ? _]. by subst.
  - case_decide; [done|]. intros _ _ [= ? _]. by subst.
  - repeat case_decide; try done.
    intros Ha Ha' [= -> Heq]. by destruct (IH a' Ha Ha' Heq) as [-> ->].
Qed.

Lemma quoted_suffix_inj (vs1 vs2 : list string) :
  length vs1 = length vs2 →
  Forall (λ v, free_of "_"%char v = true ∧ free_of "'"%char v = true) vs1 →
  Forall (λ v, free_of "_"%char v = true ∧ free_of "'"%char v = true) vs2 →
  quoted_suffix vs1 = quoted_suffix vs2 → vs1 = vs2.
Proof.
  unfold quoted_suffix. rewrite !append_cons, !append_nil_l.
  intros Hlen H1 H2 [= Heq]. revert vs2 Hlen H2 Heq.
  induction H1 as [|x vs1 [Hx Hx'] H1 IH]; intros [|y vs2]; try done.
  intros [= Hlen] [[Hy Hy'] H2]%Forall_cons.
  destruct H1 as [|x2 vs1 ? ?], H2 as [|y2 vs2 ? ?]; try done.
  - simpl. intros Heq. by destruct (split_at _ _ _ _ _ Hx' Hy' Heq) as [-> _].
  - rewrite !concat_cons_cons, !append_assoc, !append_cons, !append_nil_l.
    intros Heq. destruct (split_at _ _ _ _ _ Hx Hy Heq) as [-> Hrest].
    f_equal. apply IH; [done|by constructor|done].
Qed.

Lemma allowed_values_free (d : Dimension) (v : string) :
  v ∈ allowed_values d → free_of "_"%char v = true ∧ free_of "'"%char v = true.
Proof.
  intros H. destruct d; simpl in H;
    repeat (apply elem_of_cons in H as [->|H]; [by vm_compute|]);
    by apply elem_of_nil in H.
Qed.

(** X6.  The suffix tells the selected values apart: when two contexts bind
    the selected names to allowed values of their dimensions and the suffix
    expression has the same text in both, the values are the same. *)
Theorem get_tiago_hw_suffix_identifies_values
    (flags : HwFlags) (kwargs : Kwargs) (ctx1 ctx2 : LaunchContext)
    (vs1 vs2 : list string) :
  Forall2 (λ d v, launch_configurations ctx1 !! option_name d = Some v ∧
                  v ∈ allowed_values d) (selected flags) vs1 →
  Forall2 (λ d v, launch_configurations ctx2 !! option_name d = Some v ∧
                  v ∈ allowed_values d) (selected flags) vs2 →
  (expression_text (returned (get_tiago_hw_suffix flags kwargs)) ctx1).1 =
    (expression_text (returned (get_tiago_hw_suffix flags kwargs)) ctx2).1 →
  vs1 = vs2.
Proof.
  intros H1 H2. destruct (decide (selected flags = [])) as [Hnil|Hne].
  - rewrite Hnil in H1, H2.
    by apply Forall2_nil_inv_l in H1 as ->; apply Forall2_nil_inv_l in H2 as ->.
  - rewrite !suffix_reads_selected by done.
    assert (∀ ctx vs,
      Forall2 (λ d v, launch_configurations ctx !! option_name d = Some v ∧
                      v ∈ allowed_values d) (selected flags) vs →
      read_all (option_name <$> selected flags) ctx = (inr vs, ctx) ∧
      Forall (λ v, free_of "_"%char v = true ∧ free_of "'"%char v = true) vs)
      as Hread.
    { intros ctx vs H. split.
      - apply read_all_bound, Forall2_fmap_l.
        eapply Forall2_impl; [exact H|]. by intros ?? [? _].
      - eapply Forall2_Forall_r; [exact H|]. apply Forall_true.
        intros d v [_ Hv]. by eapply allowed_values_free. }
    destruct (Hread _ _ H1) as [Hr1 Hf1], (Hread _ _ H2) as [Hr2 Hf2].
    erewrite !bind_inr by eassumption.
    unfold mret, launch_ret. cbn [fst]. intros Heq%(inj inr).
    apply quoted_suffix_inj; try done.
    by rewrite <- (Forall2_length _ _ _ H1), <- (Forall2_length _ _ _ H2).
Qed.

(** *** The argument declarator, continued *)

Lemma get_tiago_hw_arguments_split flags defaults kwargs :
  ∃ appended : list DeclareLaunchArgument,
    get_tiago_hw_arguments flags defaults kwargs =
      get_tiago_base_hw_arguments kwargs ++ appended ∧
    declared_option <$> appended = hardware_option defaults <$> selected flags ∧
    name <$> appended = option_name <$> selected flags.
Proof.
  destruct flags as [[] [] [] [] []]; eexists;
    (split;
      [ unfold get_tiago_hw_arguments; simpl; rewrite <- ?(assoc_L (++));
        first [reflexivity | symmetry; apply app_nil_r]
      | split; reflexivity ]).
Qed.

Lemma selected_names_NoDup flags : NoDup (option_name <$> selected flags).
Proof.
  destruct flags as [[] [] [] [] []]; compute_done.
Qed.

Lemma elem_of_selected flags d : d ∈ selected flags ↔ flag flags d = true.
Proof.
  unfold selected. rewrite list_elem_of_filter. split; [by intros [? _]|].
  intros Hd. split; [done|]. destruct d; set_solver.
Qed.

Lemma declared_names flags defaults kwargs :
  name <$> get_tiago_hw_arguments flags defaults kwargs =
    (name <$> get_tiago_base_hw_arguments kwargs) ++
    (option_name <$> selected flags).
Proof.
  destruct (get_tiago_hw_arguments_split flags defaults kwargs)
    as (appended & -> & _ & <-).
  by rewrite fmap_app.
Qed.

(** X7.  When the base provider declares no name twice and none of the five
    names of this module, [get_tiago_hw_arguments] declares no name
    twice. *)
Theorem get_tiago_hw_arguments_names_distinct
    (flags : HwFlags) (defaults : HwDefaults) (kwargs : Kwargs) :
  NoDup (name <$> get_tiago_base_hw_arguments kwargs) →
  (∀ d, option_name d ∉ name <$> get_tiago_base_hw_arguments kwargs) →
  NoDup (name <$> get_tiago_hw_arguments flags defaults kwargs).
Proof.
  intros Hbase Hfresh. rewrite declared_names. apply NoDup_app.
  split; [done|]. split; [|apply selected_names_NoDup].
  intros n Hn (d & -> & _)%list_elem_of_fmap. by apply (Hfresh d).
Qed.

(** X8.  When every default override is an allowed value of its dimension,
    every declaration in the list returned by [get_tiago_hw_arguments] that
    is not one of the base provider is well formed: it has a choice, no
    choice twice, and its default among its choices. *)
Theorem get_tiago_hw_arguments_well_formed
    (flags : HwFlags) (defaults : HwDefaults) (kwargs : Kwargs)
    (a : DeclareLaunchArgument) :
  (∀ d v, override defaults d = Some v → v ∈ allowed_values d) →
  a ∈ get_tiago_hw_arguments flags defaults kwargs →
  a ∈ get_tiago_base_hw_arguments kwargs ∨ well_formed a.
Proof.
  intros Hvalid.
  destruct (get_tiago_hw_arguments_split flags defaults kwargs)
    as (appended & -> & Happ & _).
  intros [Ha|Ha]%elem_of_app; [by left|right].
  assert (declared_option a ∈ hardware_option defaults <$> selected flags)
    as (d & Hd & _)%list_elem_of_fmap
    by (rewrite <- Happ; by apply list_elem_of_fmap_2).
  injection Hd as _ Hchoices Hdefault.
  unfold well_formed. rewrite Hchoices, Hdefault. split; [by destruct d|].
  split.
  - destruct d; compute_done.
  - destruct (override defaults d) as [v|] eqn:Hv; simpl; [by eapply Hvalid|].
    destruct d; set_solver.
Qed.

Lemma sublist_step {A} (b1 b2 : bool) (x : A) (l1 l2 : list A) :
  l1 `sublist_of` l2 → (b1 = true → b2 = true) →
  (if b1 then l1 ++ [x] else l1) `sublist_of` (if b2 then l2 ++ [x] else l2).
Proof.
  intros Hl Hb. destruct b1, b2; try done.
  - by apply sublist_app.
  - by discriminate Hb.
  - by apply sublist_inserts_r.
Qed.

(** X9.  Setting more flags only adds declarations: when every flag set in
    [flags1] is set in [flags2], the list returned for [flags1] is a sublist
    of the list returned for [flags2], with the same defaults and keyword
    arguments. *)
Theorem get_tiago_hw_arguments_monotone
    (flags1 flags2 : HwFlags) (defaults : HwDefaults) (kwargs : Kwargs) :
  (∀ d, flag flags1 d = true → flag flags2 d = true) →
  get_tiago_hw_arguments flags1 defaults kwargs
    `sublist_of` get_tiago_hw_arguments flags2 defaults kwargs.
Proof.
  intros Hle. unfold get_tiago_hw_arguments. cbv zeta.
  apply sublist_step; [|exact (Hle CameraModel)].
  apply sublist_step; [|exact (Hle FtSensor)].
  apply sublist_step; [|exact (Hle EndEffector)].
  apply sublist_step; [|exact (Hle WristModel)].
  apply sublist_step; [|exact (Hle Arm)].
  done.
Qed.

(** *** The description generator, continued *)

(** X10.  The command line of [generate_robot_description_action] is
    evaluated from left to right and the first failure is its result: a
    missing xacro executable before a missing share directory, a missing
    share directory before a failure of the configuration substitution; the
    text is produced only when all three succeed, and the context is handed
    back in every case. *)
Theorem generate_robot_description_action_command_line (ctx : LaunchContext) :
  command_line generate_robot_description_action ctx =
    match get_executable_path "xacro" "xacro" with
    | None => (inl (ExecutableNotFound "xacro" "xacro"), ctx)
    | Some xacro =>
        match get_package_share_directory "tiago_description" with
        | None => (inl (PackageNotFoundError "tiago_description"), ctx)
        | Some share =>
            match (TiagoXacroConfigSubstitution.perform ctx).1 with
            | inl e => (inl e, ctx)
            | inr block =>
                (inr (xacro +:+ " " +:+
                      os_path_join [share; "robots"; "tiago.urdf.xacro"] +:+
                      block), ctx)
            end
        end
    end.
Proof.
  unfold command_line, perform_substitutions. simpl.
  destruct (get_executable_path "xacro" "xacro") as [xacro|]; [|reflexivity].
  destruct (get_package_share_directory "tiago_description") as [share|];
    [|reflexivity].
  unfold mbind, launch_bind, mret, launch_ret. simpl.
  pose proof (read_only_xacro_config ctx) as Hctx.
  destruct (TiagoXacroConfigSubstitution.perform ctx) as [[e|block] ctx'];
    simpl in *; by subst.
Qed.

(** *** The declarator with the suffix composer and the description
    generator *)

Lemma declared_bound flags defaults kwargs ctx :
  Forall (λ a, is_Some (launch_configurations ctx !! name a))
         (get_tiago_hw_arguments flags defaults kwargs) →
  Forall (λ n, is_Some (launch_configurations ctx !! n))
         (name <$> get_tiago_hw_arguments flags defaults kwargs).
Proof. intros H. by apply Forall_fmap. Qed.

(** X11.  The declarator and the suffix composer agree on the names: in a
    context that binds the name of every declaration returned by
    [get_tiago_hw_arguments] for some flags, performing the fragments of the
    suffix expression of [get_tiago_hw_suffix] for the same flags, one of
    them set, raises no lookup error, and the text of the expression is the
    quoted join of the values bound to the selected names. *)
Theorem get_tiago_hw_suffix_after_declaration
    (flags : HwFlags) (defaults : HwDefaults) (kwargs kwargs' : Kwargs)
    (ctx : LaunchContext) :
  selected flags ≠ [] →
  Forall (λ a, is_Some (launch_configurations ctx !! name a))
         (get_tiago_hw_arguments flags defaults kwargs) →
  ∃ vs : list string,
    Forall2 (λ d v, launch_configurations ctx !! option_name d = Some v)
            (selected flags) vs ∧
    expression_text (returned (get_tiago_hw_suffix flags kwargs')) ctx =
      (inr (quoted_suffix vs), ctx).
Proof.
  intros Hne Hbound%declared_bound.
  rewrite declared_names in Hbound. apply Forall_app in Hbound as [_ Hsel].
  apply bound_values in Hsel as [vs Hvs]. exists vs. split.
  - by apply Forall2_fmap_l in Hvs.
  - rewrite suffix_reads_selected by done.
    by erewrite bind_inr by (by apply read_all_bound).
Qed.

(** X12.  With the flags arm, end_effector, ft_sensor and camera_model set
    and a base provider that declares laser_model, a context that binds the
    name of every declaration returned by [get_tiago_hw_arguments] lets
    [TiagoXacroConfigSubstitution.perform] return its block. *)
Theorem perform_after_declaration
    (flags : HwFlags) (defaults : HwDefaults) (kwargs : Kwargs)
    (ctx : LaunchContext) :
  arm flags = true → end_effector flags = true →
  ft_sensor flags = true → camera_model flags = true →
  "laser_model" ∈ name <$> get_tiago_base_hw_arguments kwargs →
  Forall (λ a, is_Some (launch_configurations ctx !! name a))
         (get_tiago_hw_arguments flags defaults kwargs) →
  ∃ text, TiagoXacroConfigSubstitution.perform ctx = (inr text, ctx).
Proof.
  intros Harm Hee Hft Hcam Hlaser Hbound%declared_bound.
  rewrite declared_names, Forall_app, !Forall_forall in Hbound.
  destruct Hbound as [Hbase Hsel].
  assert (∀ d, flag flags d = true →
               is_Some (launch_configurations ctx !! option_name d)) as Hd.
  { intros d Hflag. apply Hsel, list_elem_of_fmap_2.
    by apply elem_of_selected. }
  assert (Forall (λ n, is_Some (launch_configurations ctx !! n))
            TiagoXacroConfigSubstitution.names) as [vs Hvs]%bound_values.
  { repeat constructor;
      [ by apply Hbase | exact (Hd Arm Harm) | exact (Hd EndEffector Hee)
      | exact (Hd FtSensor Hft) | exact (Hd CameraModel Hcam) ]. }
  eexists. rewrite perform_reads_names.
  by erewrite bind_inr by (by apply read_all_bound).
Qed.

(** X13.  [get_tiago_hw_arguments] never declares laser_model itself: when
    the base provider does not declare it and the context binds no name but
    those of the returned declarations,
    [TiagoXacroConfigSubstitution.perform] raises the lookup error of
    laser_model, whatever the flags. *)
Theorem perform_needs_base_laser_model
    (flags : HwFlags) (defaults : HwDefaults) (kwargs : Kwargs)
    (ctx : LaunchContext) :
  "laser_model" ∉ name <$> get_tiago_base_hw_arguments kwargs →
  (∀ n, is_Some (launch_configurations ctx !! n) →
        n ∈ name <$> get_tiago_hw_arguments flags defaults kwargs) →
  TiagoXacroConfigSubstitution.perform ctx =
    (inl (SubstitutionFailure "laser_model"), ctx).
Proof.
  intros Hbase Honly.
  assert (launch_configurations ctx !! "laser_model" = None) as Hnone.
  { apply eq_None_not_Some. intros Hsome%Honly.
    rewrite declared_names in Hsome.
    apply elem_of_app in Hsome as [?|(d & Hd & _)%list_elem_of_fmap]; [done|].
    by destruct d. }
  unfold TiagoXacroConfigSubstitution.perform.
  by erewrite bind_inl by (by apply read_undeclared).
Qed.

(** X14.  The block tells the five values apart: when two contexts bind the
    five names to values without a space and
    [TiagoXacroConfigSubstitution.perform] returns the same block in both,
    the values are the same. *)
Theorem perform_identifies_values
    (ctx1 ctx2 : LaunchContext) (vs1 vs2 : list string) :
  Forall2 (λ n v, launch_configurations ctx1 !! n = Some v ∧
                  free_of " " v = true)
          TiagoXacroConfigSubstitution.names vs1 →
  Forall2 (λ n v, launch_configurations ctx2 !! n = Some v ∧
                  free_of " " v = true)
          TiagoXacroConfigSubstitution.names vs2 →
  (TiagoXacroConfigSubstitution.perform ctx1).1 =
    (TiagoXacroConfigSubstitution.perform ctx2).1 →
  vs1 = vs2.
Proof.
  intros H1 H2. rewrite !perform_reads_names.
  assert (∀ ctx vs,
    Forall2 (λ n v, launch_configurations ctx !! n = Some v ∧
                    free_of " " v = true)
            TiagoXacroConfigSubstitution.names vs →
    read_all TiagoXacroConfigSubstitution.names ctx = (inr vs, ctx)) as Hread.
  { intros ctx vs H. apply read_all_bound.
    eapply Forall2_impl; [exact H|]. by intros ?? [? _]. }
  erewrite !bind_inr by (by apply Hread).
  unfold mret, launch_ret. cbn [fst]. intros Heq%(inj inr). revert Heq.
  unfold TiagoXacroConfigSubstitution.names in H1, H2.
  repeat match goal with
  | H : Forall2 _ (_ :: _) _ |- _ =>
      apply Forall2_cons_inv_l in H as (?v & ?vs & [_ ?Hfree] & H & ->)
  | H : Forall2 _ [] _ |- _ => apply Forall2_nil_inv_l in H as ->
  end.
  unfold xacro_arguments, xacro_argument, TiagoXacroConfigSubstitution.names.
  simpl. rewrite !append_assoc, !append_cons, !append_nil_l. intros Heq.
  repeat first
    [ injection Heq as Heq
    | apply split_at in Heq as [-> Heq]; [|assumption..] ].
  by subst.
Qed.

(** *** The suffix expression under Python's evaluator *)

Lemma literal_content_quoted (c : string) :
  literal_content (c +:+ "'") = Some c.
Proof.
  induction c as [|a c IH]; [reflexivity|].
  rewrite append_cons. simpl. rewrite IH.
  by destruct c.
Qed.

Lemma python_eval_str_literal (c : string) :
  plain c = true → python_eval_str ("'" +:+ c +:+ "'") = PyReturn c.
Proof.
  intros Hc. rewrite !append_cons, append_nil_l. simpl.
  by rewrite literal_content_quoted, Hc.
Qed.

Lemma plain_app (a b : string) :
  plain a = true → plain b = true → plain (a +:+ b) = true.
Proof.
  intros Ha Hb. induction a as [|x a IH]; [done|].
  rewrite append_cons. simpl in *.
  apply andb_prop in Ha as [Hx Ha]. by rewrite Hx, IH.
Qed.

Lemma plain_joined (vs : list string) :
  Forall (λ v, plain v = true) vs → plain (String.concat "_" vs) = true.
Proof.
  induction 1 as [|v vs Hv Hvs IH]; [done|].
  destruct vs as [|w vs]; [done|].
  rewrite concat_cons_cons. by repeat apply plain_app.
Qed.

(** C2 (amended).  With at least one flag set, in a context that binds the
    names of the selected dimensions to [values] made of printable
    characters other than the quote and the backslash, the text of the
    expression returned by [get_tiago_hw_suffix] is the values in the order
    arm, wrist_model, end_effector, ft_sensor, camera_model, joined by one
    underscore, between two single quotes, and the evaluation of the
    expression returns the join without the quotes. *)
Theorem get_tiago_hw_suffix_evaluates_to_join
    (flags : HwFlags) (kwargs : Kwargs) (ctx : LaunchContext)
    (values : list string) :
  selected flags ≠ [] →
  Forall2 (λ d v, launch_configurations ctx !! option_name d = Some v)
          (selected flags) values →
  Forall (λ v, plain v = true) values →
  expression_text (returned (get_tiago_hw_suffix flags kwargs)) ctx =
    (inr ("'" +:+ String.concat "_" values +:+ "'"), ctx) ∧
  perform_python_expression (returned (get_tiago_hw_suffix flags kwargs)) ctx =
    (inr (PyReturn (String.concat "_" values)), ctx).
Proof.
  intros Hne Hvalues Hplain.
  pose proof (get_tiago_hw_suffix_joins_selected flags kwargs ctx values
                Hne Hvalues) as Htext.
  split; [exact Htext|].
  unfold perform_python_expression.
  erewrite bind_inr by exact Htext.
  unfold mret, launch_ret.
  by rewrite python_eval_str_literal by (by apply plain_joined).
Qed.

End tiago_launch_utils.

(** ** Keyword arguments *)

(** C10.  [get_tiago_hw_suffix] ignores its extra keyword arguments: with
    the same flags, two calls print and return the same, whatever the
    keyword arguments.  [get_tiago_hw_arguments] hands them to the base
    provider, so that its result can depend on them. *)
Theorem get_tiago_hw_suffix_ignores_kwargs :
  (∀ (flags : HwFlags) (kwargs1 kwargs2 : Kwargs),
     get_tiago_hw_suffix flags kwargs1 = get_tiago_hw_suffix flags kwargs2) ∧
  (∃ kwargs1 kwargs2 : Kwargs,
     get_tiago_hw_arguments example_base_hw_arguments
       no_flags no_overrides kwargs1 ≠
     get_tiago_hw_arguments example_base_hw_arguments
       no_flags no_overrides kwargs2).
Proof.
  split; [reflexivity|].
  exists ∅, {["laser_model" := PyBool true]}.
  vm_compute. discriminate.
Qed.

(** ** The theorems at concrete inputs *)

(** The fifth testable property of the specification. *)
Lemma perform_renders_pairs_example :
  Forall2 (λ n v, launch_configurations example_context !! n = Some v)
    TiagoXacroConfigSubstitution.names
    ["sick-571"; "no-arm"; "pal-gripper"; "no-ft-sensor"; "asus-xtion"] ∧
  TiagoXacroConfigSubstitution.perform example_context =
    (inr " laser_model:=sick-571 arm:=no-arm end_effector:=pal-gripper ft_sensor:=no-ft-sensor camera_model:=asus-xtion",
     example_context).
Proof.
  assert (Forall2 (λ n v, launch_configurations example_context !! n = Some v)
            TiagoXacroConfigSubstitution.names
            ["sick-571"; "no-arm"; "pal-gripper"; "no-ft-sensor"; "asus-xtion"])
    as H by (repeat constructor).
  split; [exact H|]. exact (perform_renders_pairs example_context _ H).
Defined.

(** The sixth testable property: [laser_model] is undeclared in
    [default_context]. *)
Lemma perform_undeclared_example :
  "laser_model" ∈ TiagoXacroConfigSubstitution.names ∧
  launch_configurations default_context !! "laser_model" = None ∧
  ∃ (i : nat) (m : string),
    list_find (λ x, launch_configurations default_context !! x = None)
              TiagoXacroConfigSubstitution.names = Some (i, m) ∧
    read_launch_argument m default_context =
      (inl (SubstitutionFailure m), default_context) ∧
    TiagoXacroConfigSubstitution.perform default_context =
      read_launch_argument m default_context.
Proof.
  assert ("laser_model" ∈ TiagoXacroConfigSubstitution.names) as Hin
    by (apply list_elem_of_here).
  assert (launch_configurations default_context !! "laser_model" = None) as Hn
    by reflexivity.
  split; [exact Hin|]. split; [exact Hn|].
  exact (perform_undeclared default_context "laser_model" Hin Hn).
Defined.

Example laser_model_undeclared_raises :
  TiagoXacroConfigSubstitution.perform default_context =
    (inl (SubstitutionFailure "laser_model"), default_context).
Proof. reflexivity. Qed.

(** The fourth testable property: all five flags, every option at its
    default.  The text is the quoted join; the value is the join. *)
Lemma get_tiago_hw_suffix_evaluates_to_join_example :
  selected all_flags ≠ [] ∧
  Forall2 (λ d v, launch_configurations default_context !! option_name d = Some v)
    (selected all_flags)
    ["no-arm"; "wrist-2010"; "no-end-effector"; "schunk-ft"; "orbbec-astra"] ∧
  Forall (λ v, plain v = true)
    ["no-arm"; "wrist-2010"; "no-end-effector"; "schunk-ft"; "orbbec-astra"] ∧
  expression_text example_share_directory example_executable_path
      (String.concat "/") (returned (get_tiago_hw_suffix all_flags ∅))
      default_context =
    (inr "'no-arm_wrist-2010_no-end-effector_schunk-ft_orbbec-astra'",
     default_context) ∧
  perform_python_expression example_share_directory example_executable_path
      (String.concat "/") (returned (get_tiago_hw_suffix all_flags ∅))
      default_context =
    (inr (PyReturn "no-arm_wrist-2010_no-end-effector_schunk-ft_orbbec-astra"),
     default_context).
Proof.
  assert (selected all_flags ≠ []) as Hne by discriminate.
  assert (Forall2
            (λ d v, launch_configurations default_context !! option_name d = Some v)
            (selected all_flags)
            ["no-arm"; "wrist-2010"; "no-end-effector"; "schunk-ft"; "orbbec-astra"])
    as H by (repeat constructor).
  assert (Forall (λ v, plain v = true)
            ["no-arm"; "wrist-2010"; "no-end-effector"; "schunk-ft"; "orbbec-astra"])
    as Hplain by (repeat constructor).
  split; [exact Hne|]. split; [exact H|]. split; [exact Hplain|].
  exact (get_tiago_hw_suffix_evaluates_to_join
           example_share_directory example_executable_path (String.concat "/")
           all_flags ∅ default_context _ Hne H Hplain).
Defined.

(** At the same input the evaluation does not return the quoted join: the
    quotes delimit the literal and are not part of its value. *)
Lemma get_tiago_hw_suffix_value_has_no_quotes :
  selected all_flags ≠ [] ∧
  Forall2 (λ d v, launch_configurations default_context !! option_name d = Some v)
    (selected all_flags)
    ["no-arm"; "wrist-2010"; "no-end-effector"; "schunk-ft"; "orbbec-astra"] ∧
  perform_python_expression example_share_directory example_executable_path
      (String.concat "/") (returned (get_tiago_hw_suffix all_flags ∅))
      default_context ≠
    (inr (PyReturn "'no-arm_wrist-2010_no-end-effector_schunk-ft_orbbec-astra'"),
     default_context).
Proof.
  split; [discriminate|]. split; [repeat constructor|].
  vm_compute. discriminate.
Qed.

(** The example of the docstring of [get_tiago_hw_suffix]. *)
Example suffix_value_right_arm_wrist_gripper :
  (perform_python_expression example_share_directory example_executable_path
     (String.concat "/")
     (returned (get_tiago_hw_suffix (mkHwFlags true true true false false) ∅))
     (mkLaunchContext
        (list_to_map [("arm", "right-arm"); ("wrist_model", "wrist-2017");
                      ("end_effector", "pal-gripper")]))).1 =
    inr (PyReturn "right-arm_wrist-2017_pal-gripper").
Proof. reflexivity. Qed.

(** The second testable property: arm, wrist_model and end_effector only. *)
Example suffix_right_arm_wrist_gripper :
  expression_text example_share_directory example_executable_path
      (String.concat "/")
      (returned (get_tiago_hw_suffix (mkHwFlags true true true false false) ∅))
      (mkLaunchContext
         (list_to_map [("arm", "right-arm"); ("wrist_model", "wrist-2017");
                       ("end_effector", "pal-gripper")])) =
    (inr "'right-arm_wrist-2017_pal-gripper'",
     mkLaunchContext
       (list_to_map [("arm", "right-arm"); ("wrist_model", "wrist-2017");
                     ("end_effector", "pal-gripper")])).
Proof. reflexivity. Qed.

(** The command line of the description generator in an installation. *)
Lemma generate_robot_description_action_arguments_example :
  example_executable_path "xacro" "xacro" = Some "/opt/ros/lib/xacro/xacro" ∧
  example_share_directory "tiago_description" =
    Some "/opt/ros/share/tiago_description" ∧
  TiagoXacroConfigSubstitution.perform example_context =
    (inr " laser_model:=sick-571 arm:=no-arm end_effector:=pal-gripper ft_sensor:=no-ft-sensor camera_model:=asus-xtion",
     example_context) ∧
  command generate_robot_description_action =
    [ExecutableInPackage "xacro" "xacro";
     TextSubstitution " ";
     PathJoinSubstitution
       [FindPackageShare "tiago_description";
        TextSubstitution "robots"; TextSubstitution "tiago.urdf.xacro"];
     TiagoXacroConfigSubstitution] ∧
  command_line example_share_directory example_executable_path
      (String.concat "/") generate_robot_description_action example_context =
    (inr "/opt/ros/lib/xacro/xacro /opt/ros/share/tiago_description/robots/tiago.urdf.xacro laser_model:=sick-571 arm:=no-arm end_effector:=pal-gripper ft_sensor:=no-ft-sensor camera_model:=asus-xtion",
     example_context).
Proof.
  assert (example_executable_path "xacro" "xacro" =
            Some "/opt/ros/lib/xacro/xacro") as Hx by reflexivity.
  assert (example_share_directory "tiago_description" =
            Some "/opt/ros/share/tiago_description") as Hs by reflexivity.
  assert (TiagoXacroConfigSubstitution.perform example_context =
            (inr " laser_model:=sick-571 arm:=no-arm end_effector:=pal-gripper ft_sensor:=no-ft-sensor camera_model:=asus-xtion",
             example_context)) as Hb by reflexivity.
  split; [exact Hx|]. split; [exact Hs|]. split; [exact Hb|].
  exact (generate_robot_description_action_arguments
           example_share_directory example_executable_path
           (String.concat "/") example_context _ _ _ Hx Hs Hb).
Defined.

(** ** The further properties at concrete inputs *)

(** Binding the wrist model does not change the block. *)
Lemma perform_reads_only_its_names_example :
  Forall (λ n, launch_configurations example_context !! n =
               launch_configurations example_wrist_context !! n)
         TiagoXacroConfigSubstitution.names ∧
  (TiagoXacroConfigSubstitution.perform example_context).1 =
    (TiagoXacroConfigSubstitution.perform example_wrist_context).1.
Proof.
  assert (Forall (λ n, launch_configurations example_context !! n =
                       launch_configurations example_wrist_context !! n)
            TiagoXacroConfigSubstitution.names) as H
    by (repeat constructor).
  split; [exact H|].
  exact (perform_reads_only_its_names example_context example_wrist_context H).
Defined.

(** With all flags set, [example_context] lacks the wrist model. *)
Lemma get_tiago_hw_suffix_undeclared_example :
  list_find (λ x, launch_configurations example_context !! x = None)
            (option_name <$> selected all_flags) = Some (1, "wrist_model") ∧
  expression_text example_share_directory example_executable_path
      (String.concat "/") (returned (get_tiago_hw_suffix all_flags ∅))
      example_context =
    (inl (SubstitutionFailure "wrist_model"), example_context).
Proof.
  assert (list_find (λ x, launch_configurations example_context !! x = None)
            (option_name <$> selected all_flags) = Some (1, "wrist_model"))
    as H by reflexivity.
  split; [exact H|].
  exact (get_tiago_hw_suffix_undeclared
           example_share_directory example_executable_path (String.concat "/")
           all_flags ∅ example_context 1 "wrist_model" H).
Defined.

(** The arm suffix is the same in two contexts that bind the arm alike. *)
Lemma get_tiago_hw_suffix_reads_only_selected_example :
  Forall (λ n, launch_configurations example_context !! n =
               launch_configurations default_context !! n)
         (option_name <$> selected arm_only) ∧
  (expression_text example_share_directory example_executable_path
     (String.concat "/") (returned (get_tiago_hw_suffix arm_only ∅))
     example_context).1 =
  (expression_text example_share_directory example_executable_path
     (String.concat "/") (returned (get_tiago_hw_suffix arm_only ∅))
     default_context).1.
Proof.
  assert (Forall (λ n, launch_configurations example_context !! n =
                       launch_configurations default_context !! n)
            (option_name <$> selected arm_only)) as H
    by (repeat constructor).
  split; [exact H|].
  exact (get_tiago_hw_suffix_reads_only_selected
           example_share_directory example_executable_path (String.concat "/")
           arm_only ∅ example_context default_context H).
Defined.

(** Two contexts with the same suffix over the arm bind the same arm. *)
Lemma get_tiago_hw_suffix_identifies_values_example :
  Forall2 (λ d v, launch_configurations example_context !! option_name d = Some v ∧
                  v ∈ allowed_values d) (selected arm_only) ["no-arm"] ∧
  Forall2 (λ d v, launch_configurations default_context !! option_name d = Some v ∧
                  v ∈ allowed_values d) (selected arm_only) ["no-arm"] ∧
  (expression_text example_share_directory example_executable_path
     (String.concat "/") (returned (get_tiago_hw_suffix arm_only ∅))
     example_context).1 =
  (expression_text example_share_directory example_executable_path
     (String.concat "/") (returned (get_tiago_hw_suffix arm_only ∅))
     default_context).1 ∧
  ["no-arm"] = ["no-arm"].
Proof.
  assert (Forall2 (λ d v, launch_configurations example_context !! option_name d
                            = Some v ∧ v ∈ allowed_values d)
            (selected arm_only) ["no-arm"]) as H1
    by (repeat constructor).
  assert (Forall2 (λ d v, launch_configurations default_context !! option_name d
                            = Some v ∧ v ∈ allowed_values d)
            (selected arm_only) ["no-arm"]) as H2
    by (repeat constructor).
  assert ((expression_text example_share_directory example_executable_path
             (String.concat "/") (returned (get_tiago_hw_suffix arm_only ∅))
             example_context).1 =
          (expression_text example_share_directory example_executable_path
             (String.concat "/") (returned (get_tiago_hw_suffix arm_only ∅))
             default_context).1) as H3 by reflexivity.
  split; [exact H1|]. split; [exact H2|]. split; [exact H3|].
  exact (get_tiago_hw_suffix_identifies_values
           example_share_directory example_executable_path (String.concat "/")
           arm_only ∅ example_context default_context _ _ H1 H2 H3).
Defined.

(** The base provider declares the laser model only: no name twice. *)
Lemma get_tiago_hw_arguments_names_distinct_example :
  NoDup (name <$> example_base_hw_arguments laser_kwargs) ∧
  (∀ d, option_name d ∉ name <$> example_base_hw_arguments laser_kwargs) ∧
  NoDup (name <$> get_tiago_hw_arguments example_base_hw_arguments
                    all_flags no_overrides laser_kwargs).
Proof.
  assert (NoDup (name <$> example_base_hw_arguments laser_kwargs)) as H1
    by apply (NoDup_singleton "laser_model").
  assert (∀ d, option_name d ∉ name <$> example_base_hw_arguments laser_kwargs)
    as H2
    by (intros d; change (option_name d ∉ ["laser_model"]);
        rewrite list_elem_of_singleton; by destruct d).
  split; [exact H1|]. split; [exact H2|].
  exact (get_tiago_hw_arguments_names_distinct example_base_hw_arguments
           all_flags no_overrides laser_kwargs H1 H2).
Defined.

(** The arm declaration with its default overridden by right-arm. *)
Lemma get_tiago_hw_arguments_well_formed_example :
  (∀ d v, override right_arm_override d = Some v → v ∈ allowed_values d) ∧
  mkDeclareLaunchArgument "arm" "right-arm" "Which type of arm TIAGo has. "
      ["no-arm"; "left-arm"; "right-arm"]
    ∈ get_tiago_hw_arguments example_base_hw_arguments
        all_flags right_arm_override ∅ ∧
  (mkDeclareLaunchArgument "arm" "right-arm" "Which type of arm TIAGo has. "
      ["no-arm"; "left-arm"; "right-arm"]
     ∈ example_base_hw_arguments ∅ ∨
   well_formed
     (mkDeclareLaunchArgument "arm" "right-arm" "Which type of arm TIAGo has. "
        ["no-arm"; "left-arm"; "right-arm"])).
Proof.
  assert (∀ d v, override right_arm_override d = Some v → v ∈ allowed_values d)
    as H1 by (intros [] v; simpl; intros [= <-]; set_solver).
  assert (mkDeclareLaunchArgument "arm" "right-arm"
            "Which type of arm TIAGo has. " ["no-arm"; "left-arm"; "right-arm"]
            ∈ get_tiago_hw_arguments example_base_hw_arguments
                all_flags right_arm_override ∅) as H2
    by (vm_compute; apply list_elem_of_here).
  split; [exact H1|]. split; [exact H2|].
  exact (get_tiago_hw_arguments_well_formed example_base_hw_arguments
           all_flags right_arm_override ∅ _ H1 H2).
Defined.

(** The declarations for the arm alone are among those for all flags. *)
Lemma get_tiago_hw_arguments_monotone_example :
  (∀ d, flag arm_only d = true → flag all_flags d = true) ∧
  get_tiago_hw_arguments example_base_hw_arguments arm_only no_overrides
      laser_kwargs
    `sublist_of`
  get_tiago_hw_arguments example_base_hw_arguments all_flags no_overrides
      laser_kwargs.
Proof.
  assert (∀ d, flag arm_only d = true → flag all_flags d = true) as H
    by (by intros []).
  split; [exact H|].
  exact (get_tiago_hw_arguments_monotone example_base_hw_arguments
           arm_only all_flags no_overrides laser_kwargs H).
Defined.

(** [default_context] binds what the declarator declares for all flags. *)
Lemma get_tiago_hw_suffix_after_declaration_example :
  selected all_flags ≠ [] ∧
  Forall (λ a, is_Some (launch_configurations default_context !! name a))
         (get_tiago_hw_arguments example_base_hw_arguments
            all_flags no_overrides ∅) ∧
  ∃ vs : list string,
    Forall2 (λ d v, launch_configurations default_context !! option_name d = Some v)
            (selected all_flags) vs ∧
    expression_text example_share_directory example_executable_path
        (String.concat "/") (returned (get_tiago_hw_suffix all_flags ∅))
        default_context =
      (inr (quoted_suffix vs), default_context).
Proof.
  assert (selected all_flags ≠ []) as Hne by discriminate.
  assert (Forall (λ a, is_Some (launch_configurations default_context !! name a))
            (get_tiago_hw_arguments example_base_hw_arguments
               all_flags no_overrides ∅)) as H
    by (vm_compute; repeat constructor; by eexists).
  split; [exact Hne|]. split; [exact H|].
  exact (get_tiago_hw_suffix_after_declaration
           example_base_hw_arguments example_share_directory
           example_executable_path (String.concat "/")
           all_flags no_overrides ∅ ∅ default_context Hne H).
Defined.

(** With the laser model declared by the base provider,
    [example_wrist_context] binds every declared name. *)
Lemma perform_after_declaration_example :
  arm all_flags = true ∧ end_effector all_flags = true ∧
  ft_sensor all_flags = true ∧ camera_model all_flags = true ∧
  "laser_model" ∈ name <$> example_base_hw_arguments laser_kwargs ∧
  Forall (λ a, is_Some (launch_configurations example_wrist_context !! name a))
         (get_tiago_hw_arguments example_base_hw_arguments
            all_flags no_overrides laser_kwargs) ∧
  ∃ text,
    TiagoXacroConfigSubstitution.perform example_wrist_context =
      (inr text, example_wrist_context).
Proof.
  assert ("laser_model" ∈ name <$> example_base_hw_arguments laser_kwargs)
    as Hlaser by (vm_compute; apply list_elem_of_here).
  assert (Forall
            (λ a, is_Some (launch_configurations example_wrist_context !! name a))
            (get_tiago_hw_arguments example_base_hw_arguments
               all_flags no_overrides laser_kwargs)) as H
    by (vm_compute; repeat constructor; by eexists).
  repeat (split; [first [reflexivity | exact Hlaser | exact H]|]).
  exact (perform_after_declaration example_base_hw_arguments
           all_flags no_overrides laser_kwargs example_wrist_context
           eq_refl eq_refl eq_refl eq_refl Hlaser H).
Defined.

(** Without the laser model from the base provider, [default_context]
    binds the declared names and nothing else. *)
Lemma perform_needs_base_laser_model_example :
  ("laser_model" ∉ name <$> example_base_hw_arguments ∅) ∧
  (∀ n, is_Some (launch_configurations default_context !! n) →
        n ∈ name <$> get_tiago_hw_arguments example_base_hw_arguments
                       all_flags no_overrides ∅) ∧
  TiagoXacroConfigSubstitution.perform default_context =
    (inl (SubstitutionFailure "laser_model"), default_context).
Proof.
  assert ("laser_model" ∉ name <$> example_base_hw_arguments ∅) as H1
    by (vm_compute; apply not_elem_of_nil).
  assert (∀ n, is_Some (launch_configurations default_context !! n) →
               n ∈ name <$> get_tiago_hw_arguments example_base_hw_arguments
                              all_flags no_overrides ∅) as H2.
  { intros n [v Hn]. apply elem_of_list_to_map_2 in Hn.
    change (n ∈ ["arm"; "wrist_model"; "end_effector"; "ft_sensor";
                 "camera_model"]).
    repeat (apply elem_of_cons in Hn as [[= -> _]|Hn]; [set_solver|]).
    by apply elem_of_nil in Hn. }
  split; [exact H1|]. split; [exact H2|].
  exact (perform_needs_base_laser_model example_base_hw_arguments
           all_flags no_overrides ∅ default_context H1 H2).
Defined.

(** Two contexts with the block of the fifth testable property bind the
    same five values. *)
Lemma perform_identifies_values_example :
  Forall2 (λ n v, launch_configurations example_context !! n = Some v ∧
                  free_of " " v = true)
    TiagoXacroConfigSubstitution.names
    ["sick-571"; "no-arm"; "pal-gripper"; "no-ft-sensor"; "asus-xtion"] ∧
  Forall2 (λ n v, launch_configurations example_wrist_context !! n = Some v ∧
                  free_of " " v = true)
    TiagoXacroConfigSubstitution.names
    ["sick-571"; "no-arm"; "pal-gripper"; "no-ft-sensor"; "asus-xtion"] ∧
  (TiagoXacroConfigSubstitution.perform example_context).1 =
    (TiagoXacroConfigSubstitution.perform example_wrist_context).1 ∧
  ["sick-571"; "no-arm"; "pal-gripper"; "no-ft-sensor"; "asus-xtion"] =
    ["sick-571"; "no-arm"; "pal-gripper"; "no-ft-sensor"; "asus-xtion"].
Proof.
  assert (Forall2 (λ n v, launch_configurations example_context !! n = Some v ∧
                          free_of " " v = true)
            TiagoXacroConfigSubstitution.names
            ["sick-571"; "no-arm"; "pal-gripper"; "no-ft-sensor"; "asus-xtion"])
    as H1 by (repeat constructor).
  assert (Forall2 (λ n v, launch_configurations example_wrist_context !! n
                            = Some v ∧ free_of " " v = true)
            TiagoXacroConfigSubstitution.names
            ["sick-571"; "no-arm"; "pal-gripper"; "no-ft-sensor"; "asus-xtion"])
    as H2 by (repeat constructor).
  assert ((TiagoXacroConfigSubstitution.perform example_context).1 =
          (TiagoXacroConfigSubstitution.perform example_wrist_context).1)
    as H3 by reflexivity.
  split; [exact H1|]. split; [exact H2|]. split; [exact H3|].
  exact (perform_identifies_values example_context example_wrist_context
           _ _ H1 H2 H3).
Defined.
